(** * py_nifcloud: the request client [NifCloudClient]

    A shallow embedding of [py_nifcloud/nifcloud_client.py] and the
    properties of its endpoint builder, query normaliser, signature-version
    resolver, signer dispatch and credential resolution.

    Conventions of the embedding.
    - Python [str] is [string]: a sequence of bytes (the UTF-8 encoding of the
      text).  Python orders [str] by code point, and UTF-8 keeps that order, so
      the byte-wise order [String.le] of stdpp is the order [sorted] uses.
    - A [dict] with [str] keys is a [gmap string _]; the only iteration over a
      dict in the module goes through [sorted], so insertion order never shows.
    - Values that may be [None] or of several types are [pyval]; parameters
      that are [None] or a [str] are [option string].
    - An exception is [Raise] with the name of its class.
    - The signer classes of [py_nifcloud.auth], [requests.get]/[requests.post]
      and [urllib.parse] are collaborators: Section variables, each of which
      may raise. *)

From Stdlib Require Import ZArith String Ascii List.
From stdpp Require Import gmap strings list fin_maps sorting pretty.

Local Open Scope string_scope.

(** ** Python values and builtins *)

Inductive pyval : Type :=
  | PNone
  | PBool (b : bool)
  | PInt (z : Z)
  | PStr (s : string).

#[global] Instance pyval_eq_dec : EqDecision pyval.
Proof. solve_decision. Defined.

#[global] Instance pyval_inhabited : Inhabited pyval := populate PNone.

(** [str(v)] *)
Definition str (v : pyval) : string :=
  match v with
  | PNone => "None"
  | PBool true => "True"
  | PBool false => "False"
  | PInt z => pretty z
  | PStr s => s
  end.

(** [sep.join(l)] *)
Fixpoint join (sep : string) (l : list string) : string :=
  match l with
  | [] => ""
  | x :: l' =>
      match l' with
      | [] => x
      | _ :: _ => x ++ sep ++ join sep l'
      end
  end.

(** [sorted(d)] for a dict [d] with [str] keys: its keys in ascending order. *)
Definition sorted {V} (d : gmap string V) : list string :=
  merge_sort String.le (map_to_list d).*1.

(** [dict(pairs)]: a later pair replaces an earlier one with the same key. *)
Definition dict {V} (pairs : list (string * V)) : gmap string V :=
  list_to_map (reverse pairs).

(** [sub in s] for two [str]. *)
Fixpoint str_contains (sub s : string) : bool :=
  String.prefix sub s ||
  match s with
  | EmptyString => false
  | String _ s' => str_contains sub s'
  end.

(** Truth value of a [str]: false exactly for the empty one. *)
Definition truthy (s : string) : bool :=
  match s with
  | EmptyString => false
  | String _ _ => true
  end.

(** [os.getenv(key, default)] in the environment [env]. *)
Definition os_getenv (env : gmap string string) (key : string) (default : pyval)
  : pyval :=
  match env !! key with
  | Some v => PStr v
  | None => default
  end.

(** Outcome of a call that may raise. *)
Inductive result (A : Type) : Type :=
  | Ok (a : A)
  | Raise (exc : string).
Arguments Ok {A} a.
Arguments Raise {A} exc.

(** ** Collaborator data *)

(** [botocore.credentials.Credentials(access_key, secret_key)] *)
Record Credentials : Type := mkCredentials {
  access_key : pyval;
  secret_key : pyval
}.

(** [botocore.awsrequest.AWSRequest(method=, url=, data=, headers=)] *)
Record AWSRequest : Type := mkAWSRequest {
  method : string;
  url : string;
  data : gmap string pyval;
  headers : gmap string string
}.

(** What [yaml.load] gives for the configuration file: nothing (an empty
    document) or a mapping. *)
Inductive yaml_doc : Type :=
  | YNull
  | YMap (config : gmap string pyval).

(** A call that reaches the network. *)
Inductive net_event : Type :=
  | NetGet (u : string) (body : gmap string pyval) (hdrs : gmap string string)
  | NetPost (u : string) (body : gmap string pyval) (hdrs : gmap string string).

(** ** The client *)

Module NifCloudClient.

Definition API_DOMAIN : string := "api.cloud.nifty.com".

(** The instance attributes set by [__init__]. *)
Record t : Type := mk {
  ACCESS_KEY_ID : pyval;
  SECRET_ACCESS_KEY : pyval;
  CREDENTIALS : Credentials;
  SERVICE_NAME : string;
  REGION_NAME : option string;
  API_VERSION : option string;
  BASE_PATH : option string;
  USE_SSL : bool
}.

(** [__init__].  [file] is the configuration file: [None] when
    [os.path.isfile] fails, else the document [yaml.load] returns; [env] is the
    process environment.  An attribute that is not yet set ([hasattr] false) is
    [None] of [option]. *)
Definition __init__ (file : option yaml_doc) (env : gmap string string)
    (service_name : string) (region_name api_version base_path : option string)
    (use_ssl : bool) (access_key_id secret_access_key : pyval) : t :=
  (* read from the file *)
  let attr_access : option pyval :=
    match file with
    | Some (YMap config) => config !! "ACCESS_KEY_ID"
    | Some YNull | None => None
    end in
  let attr_secret : option pyval :=
    match file with
    | Some (YMap config) => config !! "SECRET_ACCESS_KEY"
    | Some YNull | None => None
    end in
  (* overwrite with the environment *)
  let access1 : pyval :=
    match attr_access with
    | Some cur => os_getenv env "ACCESS_KEY_ID" cur
    | None => os_getenv env "ACCESS_KEY_ID" PNone
    end in
  let secret1 : pyval :=
    match attr_secret with
    | Some cur => os_getenv env "SECRET_ACCESS_KEY" cur
    | None => os_getenv env "SECRET_ACCESS_KEY" PNone
    end in
  (* overwrite with the arguments *)
  let access2 := if decide (access_key_id = PNone) then access1 else access_key_id in
  let secret2 := if decide (secret_access_key = PNone) then secret1 else secret_access_key in
  {| ACCESS_KEY_ID := access2;
     SECRET_ACCESS_KEY := secret2;
     CREDENTIALS := mkCredentials access2 secret2;
     SERVICE_NAME := service_name;
     REGION_NAME := region_name;
     API_VERSION := api_version;
     BASE_PATH := base_path;
     USE_SSL := use_ssl |}.

(** [_make_endpoint_url] *)
Definition _make_endpoint_url (self : t) (path : option string) : string :=
  let protocol := if USE_SSL self then "https" else "http" in
  let service :=
    if truthy (SERVICE_NAME self) then SERVICE_NAME self ++ "." else "" in
  let region :=
    match REGION_NAME self with
    | Some r => if truthy r then r ++ "." else ""
    | None => ""
    end in
  let path_param :=
    match BASE_PATH self with
    | Some b => if truthy b then b ++ "/" else ""
    | None => ""
    end in
  let path_param :=
    match API_VERSION self with
    | Some v => if truthy v then path_param ++ v ++ "/" else path_param
    | None => path_param
    end in
  let path_param :=
    match path with
    | Some p => if truthy p then path_param ++ p ++ "/" else path_param
    | None => path_param
    end in
  protocol ++ "://" ++ service ++ region ++ API_DOMAIN ++ "/" ++ path_param.

Section Request.

(** The collaborators of [request]. *)
Context {Response kwargs : Type}.

(** [NifCloudSigV4Auth(credentials, service_name=, region_name=).add_auth]
    and the three other signers: each returns the request with its
    authentication added, or raises. *)
Variable NifCloudSigV4Auth :
  Credentials → string → option string → AWSRequest → result AWSRequest.
Variables NifCloudSigV2Auth NifCloudSigV1Auth NifCloudSigV0Auth :
  Credentials → AWSRequest → result AWSRequest.

(** [requests.get(url, data, headers=, **kwargs)] and [requests.post]. *)
Variables requests_get requests_post :
  string → gmap string pyval → gmap string string → kwargs → result Response.

(** [parse.parse_qsl(parse.urlsplit(url).query)]: the fields of the query
    of [url], or the [ValueError] that [urlsplit] raises for a URL it
    refuses (a host with an unmatched bracket, say). *)
Variable url_query_pairs : string → result (list (string * string)).

(** [_get_signature_version] *)
Definition _get_signature_version (self : t) (request : AWSRequest)
    (url : string) : result pyval :=
  let params := data request in
  match url_query_pairs url with
  | Raise e => Raise e
  | Ok pairs =>
      let query := dict pairs in
      match query !! "SignatureVersion" with
      | Some v => Ok (PStr v)
      | None =>
          match params !! "SignatureVersion" with
          | Some v => Ok v
          | None =>
              if str_contains "computing" (SERVICE_NAME self) then Ok (PStr "2")
              else Ok (PStr "4")
          end
      end
  end.

(** [request], first part (lines 93-109): defaults for the missing arguments,
    the query string of a GET, and the [AWSRequest] that is handed to the
    signer. *)
Definition build_request (self : t) (method : string) (path : option string)
    (query : option (gmap string pyval))
    (headers : option (gmap string string)) : AWSRequest :=
  let query := match query with Some q => q | None => ∅ end in
  let headers := match headers with Some h => h | None => ∅ end in
  let '(url_query, query) :=
    if decide (method = "GET") then
      let l := (λ key, key ++ "=" ++ str (query !!! key)) <$> sorted query in
      ("?" ++ join "&" l, ∅)
    else ("", query) in
  let url := _make_endpoint_url self path ++ url_query in
  mkAWSRequest method url query headers.

(** [request], second part (lines 112-124): the signer chosen by the
    signature version. *)
Definition add_auth (self : t) (signature_version : pyval)
    (request : AWSRequest) : result AWSRequest :=
  if decide (signature_version = PStr "4") then
    NifCloudSigV4Auth (CREDENTIALS self) (SERVICE_NAME self) (REGION_NAME self)
      request
  else if decide (signature_version = PStr "2") then
    NifCloudSigV2Auth (CREDENTIALS self) request
  else if decide (signature_version = PStr "1") then
    NifCloudSigV1Auth (CREDENTIALS self) request
  else if decide (signature_version = PStr "0") then
    NifCloudSigV0Auth (CREDENTIALS self) request
  else
    NifCloudSigV2Auth (CREDENTIALS self) request.

(** [request], last part (lines 126-130): the call of the transport that
    fits the method, with the network calls made.  No branch fits another
    method: the function ends and returns [None]. *)
Definition send (request : AWSRequest) (kw : kwargs)
    : result (option Response) * list net_event :=
  if decide (method request = "GET") then
    (match requests_get (url request) (data request) (headers request) kw with
     | Ok resp => Ok (Some resp)
     | Raise e => Raise e
     end,
     [NetGet (url request) (data request) (headers request)])
  else if decide (method request = "POST") then
    (match requests_post (url request) (data request) (headers request) kw with
     | Ok resp => Ok (Some resp)
     | Raise e => Raise e
     end,
     [NetPost (url request) (data request) (headers request)])
  else (Ok None, []).

(** [request] *)
Definition request (self : t) (method : string) (path : option string)
    (query : option (gmap string pyval))
    (headers : option (gmap string string)) (kw : kwargs)
    : result (option Response) * list net_event :=
  let request := build_request self method path query headers in
  match _get_signature_version self request (url request) with
  | Raise e => (Raise e, [])
  | Ok signature_version =>
      match add_auth self signature_version request with
      | Raise e => (Raise e, [])
      | Ok request => send request kw
      end
  end.

(** [get] and [post] *)
Definition get (self : t) path query headers (kw : kwargs) :=
  request self "GET" path query headers kw.

Definition post (self : t) path query headers (kw : kwargs) :=
  request self "POST" path query headers kw.

End Request.

End NifCloudClient.

Import NifCloudClient.

(** ** The endpoint as the specification words it *)

(** A component that is present (not [None], not empty) followed by its
    separator; nothing for an absent one. *)
Definition component (x : option string) (sep : string) : string :=
  match x with
  | Some s => if truthy s then s ++ sep else ""
  | None => ""
  end.

Definition endpoint_spec (self : t) (path : option string) : string :=
  (if USE_SSL self then "https" else "http") ++ "://"
  ++ component (Some (SERVICE_NAME self)) "."
  ++ component (REGION_NAME self) "."
  ++ API_DOMAIN ++ "/"
  ++ component (BASE_PATH self) "/"
  ++ component (API_VERSION self) "/"
  ++ component path "/".

(** ** The precedence of the credential sources as the specification words it *)

(** [resolved] is the argument when one is given; else the value of the
    environment variable [name] when it is set; else the value the
    configuration file has for [name] when it has one. *)
Definition follows_precedence (name : string) (file : option yaml_doc)
    (env : gmap string string) (arg resolved : pyval) : Prop :=
  (arg ≠ PNone → resolved = arg) ∧
  (arg = PNone → ∀ e, env !! name = Some e → resolved = PStr e) ∧
  (arg = PNone → env !! name = None →
   ∀ config v, file = Some (YMap config) → config !! name = Some v →
               resolved = v).

(** ** The contract of a signer *)


(** ** Stand-ins for the collaborators, to run the client on examples *)

Module Demo.

(** Modelled from the spec: the signer classes of [py_nifcloud.auth] are not
    part of the source at hand.  The specification gives a signer the
    contract [sign(request, credentials) -> request']: it adds
    authentication headers and leaves method, URL and other headers alone.
    This one records its version and the access key in [Authorization]. *)
Definition signer (version : string) (c : Credentials) (r : AWSRequest)
    : result AWSRequest :=
  Ok (mkAWSRequest (method r) (url r) (data r)
        (<["Authorization" := version ++ " " ++ str (access_key c)]> (headers r))).

Definition signer_v4 (c : Credentials) (service_name : string)
    (region_name : option string) (r : AWSRequest) : result AWSRequest :=
  signer "V4" c r.

(** A transport that answers every call with the verb and the URL. *)
Definition transport (verb : string) (u : string) (body : gmap string pyval)
    (hdrs : gmap string string) (kw : unit) : result string :=
  Ok (verb ++ " " ++ u).

(** The text after the first [c] of [s], if [c] occurs. *)
Fixpoint after_char (c : ascii) (s : string) : option string :=
  match s with
  | EmptyString => None
  | String a s' => if Ascii.eqb a c then Some s' else after_char c s'
  end.

(** The text before the first [c] of [s]; all of [s] without a [c]. *)
Fixpoint before_char (c : ascii) (s : string) : string :=
  match s with
  | EmptyString => ""
  | String a s' => if Ascii.eqb a c then "" else String a (before_char c s')
  end.

(** [s.split(c)] *)
Fixpoint split_char (c : ascii) (s : string) : list string :=
  match s with
  | EmptyString => [""]
  | String a s' =>
      if Ascii.eqb a c then "" :: split_char c s'
      else match split_char c s' with
           | [] => [String a ""]
           | w :: ws => String a w :: ws
           end
  end.

(** A plain reading of a URL's query: the text between the first [?] and
    the first [#], cut at [&]; a field counts when it has an [=] and a
    value that is not empty.  Nothing is percent-decoded. *)
Definition plain_query_pairs (u : string) : list (string * string) :=
  match after_char "?" (before_char "#" u) with
  | None => []
  | Some qs =>
      omap (λ nv,
              match after_char "=" nv with
              | Some v => if truthy v then Some (before_char "=" nv, v) else None
              | None => None
              end)
           (split_char "&" qs)
  end.

(** The host of a URL: the text after [//], up to the first [/], [?] or
    [#]. *)
Definition netloc (u : string) : string :=
  match after_char "/" u with
  | Some rest =>
      match after_char "/" rest with
      | Some host => before_char "#" (before_char "?" (before_char "/" host))
      | None => ""
      end
  | None => ""
  end.

(** The reading of the query that can fail: a host with one bracket and not
    the other is refused with a [ValueError], as [urlsplit] does. *)
Definition url_query_pairs (u : string) : result (list (string * string)) :=
  if xorb (str_contains "[" (netloc u)) (str_contains "]" (netloc u))
  then Raise "ValueError"
  else Ok (plain_query_pairs u).

Definition get_signature_version :=
  _get_signature_version url_query_pairs.

Definition request :=
  NifCloudClient.request signer_v4 (signer "V2") (signer "V1") (signer "V0")
    (transport "GET") (transport "POST") url_query_pairs.

(** A client for the service [computing] in [jp-east-1], with credentials
    given as arguments, and one for [storage] that finds none anywhere. *)
Definition computing : t :=
  __init__ None ∅ "computing" (Some "jp-east-1") None None true
    (PStr "AKID") (PStr "SECRET").

Definition no_credentials : t :=
  __init__ None ∅ "storage" None None None true PNone PNone.

(** A transport that cannot reach its server, and a signer that refuses. *)
Definition transport_down (u : string) (body : gmap string pyval)
    (hdrs : gmap string string) (kw : unit) : result string :=
  Raise "ConnectionError".

Definition signer_refusing (c : Credentials) (r : AWSRequest)
    : result AWSRequest :=
  Raise "NoCredentialsError".

(** The client run against the transport that is down. *)
Definition request_offline :=
  NifCloudClient.request signer_v4 (signer "V2") (signer "V1") (signer "V0")
    transport_down transport_down url_query_pairs.

(** A client whose service name makes a host that [urlsplit] refuses. *)
Definition bracket : t :=
  __init__ None ∅ "[storage" None None None true PNone PNone.

End Demo.

(** ** Facts about the builtins *)

Lemma str_app_cons (x : ascii) (a b : string) :
  String x a ++ b = String x (a ++ b).
Proof. reflexivity. Qed.

Lemma str_app_assoc (a b c : string) : (a ++ b) ++ c = a ++ b ++ c.
Proof. induction a as [|x a IH]; [done|]. by rewrite !str_app_cons, IH. Qed.

Lemma str_app_nil_r (a : string) : a ++ "" = a.
Proof. induction a as [|x a IH]; [done|]. by rewrite str_app_cons, IH. Qed.

Lemma prefix_app (p s : string) :
  String.prefix p s = true ↔ ∃ t, s = p ++ t.
Proof.
  revert s. induction p as [|x p IH]; intros s.
  - split; [intros _; by exists s|intros _; by destruct s].
  - destruct s as [|y s]; cbn.
    + split; [done|intros [t Ht]; discriminate Ht].
    + destruct (ascii_dec x y) as [->|Hne].
      * rewrite IH. split; intros [t Ht]; exists t; [by rewrite Ht|].
        by injection Ht.
      * split; [done|]. intros [t Ht]. injection Ht as -> _. done.
Qed.

(** [sub in s] holds exactly when [sub] occurs somewhere inside [s]. *)
Lemma str_contains_spec (sub s : string) :
  str_contains sub s = true ↔ ∃ a b, s = a ++ sub ++ b.
Proof.
  induction s as [|y s IH]; cbn [str_contains]; rewrite orb_true_iff, prefix_app.
  - split.
    + intros [[t Ht]|?]; [|done]. by exists "", t.
    + intros (a & b & Hab). left. destruct a; [by exists b|discriminate Hab].
  - rewrite IH. split.
    + intros [[t Ht]|(a & b & Hab)]; [by exists "", t|].
      exists (String y a), b. by rewrite Hab.
    + intros (a & b & Hab). destruct a as [|x a]; [left; by exists b|].
      right. injection Hab as -> ->. by exists a, b.
Qed.

(** [sorted] lists every key once, in strictly ascending order. *)
Lemma sorted_elem_of {V} (d : gmap string V) (k : string) :
  k ∈ sorted d ↔ is_Some (d !! k).
Proof.
  unfold sorted. rewrite merge_sort_Permutation, list_elem_of_fmap. split.
  - intros [[k' v] [-> Hin]]. apply elem_of_map_to_list in Hin. by exists v.
  - intros [v Hv]. exists (k, v). split; [done|]. by apply elem_of_map_to_list.
Qed.

Lemma sorted_NoDup {V} (d : gmap string V) : NoDup (sorted d).
Proof.
  unfold sorted. rewrite merge_sort_Permutation. apply NoDup_fst_map_to_list.
Qed.

Lemma StronglySorted_strict (l : list string) :
  StronglySorted String.le l → NoDup l → StronglySorted (strict String.le) l.
Proof.
  induction 1 as [|x l Hl IH Hx]; intros Hnd; [constructor|].
  apply NoDup_cons in Hnd as [Hnotin Hnd].
  constructor; [by apply IH|].
  apply Forall_forall. intros y Hy. split.
  - by eapply Forall_forall in Hx.
  - intros Hyx. assert (x = y) as ->; [|done].
    apply (anti_symm String.le); [|done]. by eapply Forall_forall in Hx.
Qed.

Lemma sorted_ascending {V} (d : gmap string V) :
  StronglySorted (strict String.le) (sorted d).
Proof.
  apply StronglySorted_strict; [|apply sorted_NoDup].
  unfold sorted. apply (StronglySorted_merge_sort _).
Qed.

(** An element of a joined list stands in the result as it is. *)
Lemma join_elem_of (sep x : string) (l : list string) :
  x ∈ l → ∃ pre post, join sep l = pre ++ x ++ post.
Proof.
  induction l as [|y l IH]; [by intros ?%elem_of_nil|].
  intros [->|Hin]%elem_of_cons.
  - destruct l as [|z l]; [exists "", ""; cbn; by rewrite str_app_nil_r|].
    exists "", (sep ++ join sep (z :: l)). done.
  - destruct l as [|z l]; [by apply elem_of_nil in Hin|].
    destruct (IH Hin) as (pre & post & Heq).
    exists (y ++ sep ++ pre), post.
    change (join sep (y :: z :: l)) with (y ++ sep ++ join sep (z :: l)).
    by rewrite Heq, !str_app_assoc.
Qed.

(** [dict]: a key that occurs among the pairs maps to the value of its last
    pair; a key that does not occur is absent. *)
Lemma dict_lookup_Some {V} (pairs : list (string * V)) (k : string) :
  k ∈ pairs.*1 →
  ∃ l1 v l2,
    pairs = (l1 ++ (k, v) :: l2)%list ∧ (k ∉ l2.*1) ∧ dict pairs !! k = Some v.
Proof.
  unfold dict. induction pairs as [|[k' v'] pairs IH] using rev_ind.
  { by intros ?%elem_of_nil. }
  rewrite fmap_app, reverse_app, elem_of_app. cbn.
  destruct (decide (k' = k)) as [->|Hne].
  - intros _. exists pairs, v', []. split_and!; [done|apply not_elem_of_nil|].
    apply lookup_insert_eq.
  - intros [Hin|Hin%list_elem_of_singleton]; [|done].
    destruct (IH Hin) as (l1 & v & l2 & -> & Hnotin & Hlook).
    exists l1, v, (l2 ++ [(k', v')])%list. split_and!.
    + by rewrite <- app_assoc.
    + rewrite fmap_app, not_elem_of_app. split; [done|].
      cbn. rewrite list_elem_of_singleton. congruence.
    + by rewrite lookup_insert_ne.
Qed.

Lemma dict_lookup_None {V} (pairs : list (string * V)) (k : string) :
  k ∉ pairs.*1 → dict pairs !! k = None.
Proof.
  intros Hnotin. unfold dict. apply not_elem_of_list_to_map_1.
  by rewrite fmap_reverse, elem_of_reverse.
Qed.

(** ** The endpoint builder *)

Lemma endpoint_refines_spec (self : t) (path : option string) :
  _make_endpoint_url self path = endpoint_spec self path.
Proof.
  unfold _make_endpoint_url, endpoint_spec, component.
  destruct (USE_SSL self), (REGION_NAME self) as [r|], (BASE_PATH self) as [b|],
    (API_VERSION self) as [v|], path as [p|];
    repeat match goal with
           | |- context [truthy ?x] => destruct (truthy x)
           end;
    by rewrite ?str_app_assoc, ?str_app_nil_r.
Qed.

(** C6: the endpoint URL is the protocol ([https] exactly when [USE_SSL]),
    [://], the service name and the region name each followed by a dot when
    not empty, the API domain, [/], and then the base path, the API version
    and the caller's path in that order, each followed by [/] when present;
    an absent component contributes nothing, so the service [computing] with
    nothing else set gives [https://computing.api.cloud.nifty.com/]. *)
Theorem make_endpoint_url_spec :
  (∀ self path, _make_endpoint_url self path = endpoint_spec self path) ∧
  (∀ file env access secret,
     _make_endpoint_url
       (__init__ file env "computing" None None None true access secret) None
     = "https://computing.api.cloud.nifty.com/").
Proof. split; [apply endpoint_refines_spec|reflexivity]. Qed.

(** ** The signature version *)

(** C1: with the fields that [urllib] reads from the URL's query, the
    signature version is resolved in this order, the first match winning: a
    [SignatureVersion] key of the URL's query gives its value (of its last
    field when repeated); else a [SignatureVersion] key of the body
    gives its value as it is; else a service name that contains [computing]
    gives ["2"]; else the result is ["4"]. *)
Theorem signature_version_resolution
    (url_query_pairs : string → result (list (string * string)))
    (self : t) (request : AWSRequest) (url : string)
    (pairs : list (string * string)) :
  url_query_pairs url = Ok pairs →
  let key := "SignatureVersion" in
  let resolved := _get_signature_version url_query_pairs self request url in
  (key ∈ pairs.*1 →
     ∃ l1 v l2, pairs = (l1 ++ (key, v) :: l2)%list ∧ (key ∉ l2.*1) ∧
                resolved = Ok (PStr v)) ∧
  (key ∉ pairs.*1 → ∀ v, data request !! key = Some v → resolved = Ok v) ∧
  (key ∉ pairs.*1 → data request !! key = None →
     (∃ a b, SERVICE_NAME self = a ++ "computing" ++ b) →
     resolved = Ok (PStr "2")) ∧
  (key ∉ pairs.*1 → data request !! key = None →
     ¬ (∃ a b, SERVICE_NAME self = a ++ "computing" ++ b) →
     resolved = Ok (PStr "4")).
Proof.
  intros Hpairs key resolved. subst resolved. unfold _get_signature_version.
  rewrite Hpairs. fold key. split_and!.
  - intros Hin. destruct (dict_lookup_Some pairs key Hin)
      as (l1 & v & l2 & Hsplit & Hlast & ->). by exists l1, v, l2.
  - intros Hnotin v Hv. by rewrite (dict_lookup_None pairs key Hnotin), Hv.
  - intros Hnotin Hbody Hsub%str_contains_spec.
    by rewrite (dict_lookup_None pairs key Hnotin), Hbody, Hsub.
  - intros Hnotin Hbody Hsub.
    rewrite (dict_lookup_None pairs key Hnotin), Hbody.
    destruct (str_contains "computing" (SERVICE_NAME self)) eqn:Hc; [|done].
    by apply str_contains_spec in Hc.
Qed.

Lemma signature_version_resolution_example :
  ∃ v,
    Demo.get_signature_version Demo.computing
      (mkAWSRequest "POST"
         "https://computing.api.cloud.nifty.com/?SignatureVersion=1"
         {[ "SignatureVersion" := PStr "4" ]} ∅)
      "https://computing.api.cloud.nifty.com/?SignatureVersion=1"
    = Ok (PStr v).
Proof.
  destruct (signature_version_resolution Demo.url_query_pairs Demo.computing
              (mkAWSRequest "POST"
                 "https://computing.api.cloud.nifty.com/?SignatureVersion=1"
                 {[ "SignatureVersion" := PStr "4" ]} ∅)
              "https://computing.api.cloud.nifty.com/?SignatureVersion=1"
              [("SignatureVersion", "1")]) as [Hurl _].
  - vm_compute. reflexivity.
  - destruct Hurl as (l1 & v & l2 & _ & _ & Hresolved).
    + vm_compute. constructor.
    + by exists v.
Defined.

(** When [urlsplit] refuses the URL no version is resolved: its exception
    is the outcome. *)
Lemma signature_version_parse_error
    (url_query_pairs : string → result (list (string * string)))
    (self : t) (request : AWSRequest) (url : string) (e : string) :
  url_query_pairs url = Raise e ↔
  _get_signature_version url_query_pairs self request url = Raise e.
Proof.
  unfold _get_signature_version. destruct (url_query_pairs url) as [pairs|e'].
  - split; [done|]. by repeat case_match.
  - split; by intros [= ->].
Qed.

(** The specification's example: a [SignatureVersion=1] in the URL wins over
    a [SignatureVersion] of the body and over the default of [computing]. *)
Example signature_version_query_wins :
  Demo.get_signature_version Demo.computing
    (mkAWSRequest "POST" "https://computing.api.cloud.nifty.com/?SignatureVersion=1"
       {[ "SignatureVersion" := PStr "4" ]} ∅)
    "https://computing.api.cloud.nifty.com/?SignatureVersion=1"
  = Ok (PStr "1").
Proof. vm_compute. reflexivity. Qed.

Example signature_version_defaults :
  Demo.get_signature_version Demo.computing
    (mkAWSRequest "GET" "https://computing.jp-east-1.api.cloud.nifty.com/?" ∅ ∅)
    "https://computing.jp-east-1.api.cloud.nifty.com/?" = Ok (PStr "2")
  ∧ Demo.get_signature_version Demo.no_credentials
      (mkAWSRequest "GET" "https://storage.api.cloud.nifty.com/?" ∅ ∅)
      "https://storage.api.cloud.nifty.com/?" = Ok (PStr "4").
Proof. split; vm_compute; reflexivity. Qed.

(** A host with an unmatched bracket: no version, the [ValueError]. *)
Example signature_version_bracket_host :
  Demo.get_signature_version Demo.bracket
    (mkAWSRequest "GET" "https://[storage.api.cloud.nifty.com/?" ∅ ∅)
    "https://[storage.api.cloud.nifty.com/?" = Raise "ValueError".
Proof. vm_compute. reflexivity. Qed.

(** ** The signer dispatch and the errors of the pipeline *)

Section Pipeline.

Context {Response kwargs : Type}.
Variable sig_v4 :
  Credentials → string → option string → AWSRequest → result AWSRequest.
Variables sig_v2 sig_v1 sig_v0 : Credentials → AWSRequest → result AWSRequest.
Variables requests_get requests_post :
  string → gmap string pyval → gmap string string → kwargs → result Response.
Variable url_query_pairs : string → result (list (string * string)).

Local Abbreviation add_auth := (add_auth sig_v4 sig_v2 sig_v1 sig_v0).
Local Abbreviation send := (send requests_get requests_post).
Local Abbreviation resolve := (_get_signature_version url_query_pairs).
Local Abbreviation request :=
  (request sig_v4 sig_v2 sig_v1 sig_v0 requests_get requests_post
     url_query_pairs).

(** [request] is its parts in a row. *)
Lemma request_unfold (self : t) method path query headers (kw : kwargs) :
  let r := build_request self method path query headers in
  request self method path query headers kw =
    match resolve self r (url r) with
    | Raise e => (Raise e, [])
    | Ok version =>
        match add_auth self version r with
        | Raise e => (Raise e, [])
        | Ok signed => send signed kw
        end
    end.
Proof. reflexivity. Qed.

(** C2: a signature version outside ["0"], ["1"], ["2"], ["4"] selects the
    V2 signer, and the request goes on as with V2: what [request] gives is
    what signing with V2 and sending give, with no error for the unknown
    version. *)
Theorem unknown_version_uses_v2 (version : pyval) :
  version ≠ PStr "0" → version ≠ PStr "1" →
  version ≠ PStr "2" → version ≠ PStr "4" →
  (∀ self r, add_auth self version r = sig_v2 (CREDENTIALS self) r) ∧
  (∀ self method path query headers kw,
     let r := build_request self method path query headers in
     resolve self r (url r) = Ok version →
     request self method path query headers kw =
       match sig_v2 (CREDENTIALS self) r with
       | Raise e => (Raise e, [])
       | Ok signed => send signed kw
       end).
Proof.
  intros H0 H1 H2 H4.
  assert (∀ self r, add_auth self version r = sig_v2 (CREDENTIALS self) r)
    as Hdispatch.
  { intros self r. unfold NifCloudClient.add_auth.
    repeat case_decide; done. }
  split; [done|].
  intros self method path query headers kw r Hv.
  rewrite request_unfold. cbv zeta. fold r. by rewrite Hv, Hdispatch.
Qed.

(** C4, as the code has it: a method that is neither GET nor POST is not
    rejected.  The request is built all the same.  When [urlsplit] refuses
    its URL, the exception goes through before any signer is called;
    otherwise the request is signed, an exception of the signer goes
    through, and when the signer returns (leaving the method alone)
    [request] returns [None].  In every case nothing reaches the network. *)
Theorem unsupported_method_returns_none (self : t) (verb : string)
    (path : option string) (query : option (gmap string pyval))
    (hdrs : option (gmap string string)) (kw : kwargs) :
  verb ≠ "GET" → verb ≠ "POST" →
  let r := build_request self verb path query hdrs in
  (∀ e, url_query_pairs (url r) = Raise e →
        request self verb path query hdrs kw = (Raise e, [])) ∧
  (∀ version e, resolve self r (url r) = Ok version →
                add_auth self version r = Raise e →
                request self verb path query hdrs kw = (Raise e, [])) ∧
  (∀ version r', resolve self r (url r) = Ok version →
                 add_auth self version r = Ok r' → method r' = verb →
                 request self verb path query hdrs kw = (Ok None, [])).
Proof.
  intros Hget Hpost r. rewrite request_unfold. cbv zeta. fold r. split_and!.
  - intros e He.
    by rewrite (proj1 (signature_version_parse_error _ self r _ e) He).
  - by intros version e -> ->.
  - intros version r' -> -> Hmethod. unfold NifCloudClient.send.
    rewrite Hmethod. by rewrite !decide_False.
Qed.

(** C5, as the code has it: when no source gives credentials, [__init__]
    still returns a client, whose credentials are [(None, None)], and
    [request] makes no check of them: once the signature version is
    resolved it hands these credentials to the selected signer, and when the
    signer returns it sends the request the signer returned. *)
Theorem missing_credentials_not_checked (file : option yaml_doc)
    (env : gmap string string) (service_name : string)
    (region_name api_version base_path : option string) (use_ssl : bool) :
  (∀ config v, file = Some (YMap config) →
               config !! "ACCESS_KEY_ID" = Some v → v = PNone) →
  (∀ config v, file = Some (YMap config) →
               config !! "SECRET_ACCESS_KEY" = Some v → v = PNone) →
  env !! "ACCESS_KEY_ID" = None →
  env !! "SECRET_ACCESS_KEY" = None →
  let self := __init__ file env service_name region_name api_version
                base_path use_ssl PNone PNone in
  let none := mkCredentials PNone PNone in
  CREDENTIALS self = none ∧
  ∀ verb path query hdrs kw version,
    let r := build_request self verb path query hdrs in
    resolve self r (url r) = Ok version →
    (add_auth self version r = sig_v4 none service_name region_name r ∨
     add_auth self version r = sig_v2 none r ∨
     add_auth self version r = sig_v1 none r ∨
     add_auth self version r = sig_v0 none r) ∧
    (∀ signed,
       add_auth self version r = Ok signed →
       request self verb path query hdrs kw = send signed kw).
Proof.
  intros Hfile_access Hfile_secret Haccess Hsecret self none.
  assert (CREDENTIALS self = none) as Hcred.
  { subst self none. unfold __init__, os_getenv. cbn [CREDENTIALS].
    rewrite Haccess, Hsecret. destruct file as [[|config]|]; [done| |done].
    destruct (config !! "ACCESS_KEY_ID") as [a|] eqn:Ha;
      destruct (config !! "SECRET_ACCESS_KEY") as [b|] eqn:Hb;
      rewrite ?(Hfile_access _ _ eq_refl Ha), ?(Hfile_secret _ _ eq_refl Hb);
      done. }
  split; [done|]. intros verb path query hdrs kw version r Hversion. split.
  - unfold NifCloudClient.add_auth. rewrite Hcred.
    repeat case_decide; auto.
  - intros signed Hsigned. rewrite request_unfold. cbv zeta. fold r.
    by rewrite Hversion, Hsigned.
Qed.

End Pipeline.

(** The runs that bear the three theorems out, with the stand-ins. *)

Lemma unsupported_method_put_returns_none :
  Demo.request Demo.computing "PUT" None
    (Some {[ "Action" := PStr "DescribeInstances" ]}) None tt
  = (Ok None, []).
Proof.
  pose proof (unsupported_method_returns_none (Response := string)
                (kwargs := unit) Demo.signer_v4 (Demo.signer "V2")
                (Demo.signer "V1") (Demo.signer "V0") (Demo.transport "GET")
                (Demo.transport "POST") Demo.url_query_pairs Demo.computing
                "PUT" None (Some {[ "Action" := PStr "DescribeInstances" ]})
                None tt) as Hput.
  cbv zeta in Hput. destruct Hput as (_ & _ & Hok); [discriminate..|].
  eapply Hok; [lazy; reflexivity|lazy; reflexivity|reflexivity].
Defined.

(** With a host that [urlsplit] refuses, the same PUT ends in the
    [ValueError], and no signer is reached. *)
Example unsupported_method_put_bracket_host :
  Demo.request Demo.bracket "PUT" None None None tt = (Raise "ValueError", []).
Proof. by vm_compute. Qed.

(** The claim C4 fails here: PUT is neither GET nor POST, and the call
    returns [None] instead of raising. *)
Lemma unsupported_method_put_not_rejected :
  "PUT" ≠ "GET" ∧ "PUT" ≠ "POST" ∧
  (Demo.request Demo.computing "PUT" None None None tt).1 = Ok None ∧
  (Demo.request Demo.computing "PUT" None None None tt).1
    ≠ Raise "UnsupportedMethodError".
Proof. split_and!; [done|done|by vm_compute|by vm_compute]. Qed.

Lemma missing_credentials_storage_post :
  CREDENTIALS Demo.no_credentials = mkCredentials PNone PNone ∧
  Demo.request Demo.no_credentials "POST" (Some "buckets")
    (Some {[ "Name" := PStr "logs" ]}) None tt
  = (Ok (Some "POST https://storage.api.cloud.nifty.com/buckets/"),
     [NetPost "https://storage.api.cloud.nifty.com/buckets/"
        {[ "Name" := PStr "logs" ]} {[ "Authorization" := "V4 None" ]}]).
Proof.
  pose proof (missing_credentials_not_checked (Response := string)
                (kwargs := unit) Demo.signer_v4 (Demo.signer "V2")
                (Demo.signer "V1") (Demo.signer "V0") (Demo.transport "GET")
                (Demo.transport "POST") Demo.url_query_pairs
                None ∅ "storage" None None None true) as Hnone.
  cbv zeta in Hnone. destruct Hnone as [Hcred Hrequest]; [done..|].
  split; [exact Hcred|].
  destruct (Hrequest "POST" (Some "buckets")
              (Some {[ "Name" := PStr "logs" ]}) None tt (PStr "4"))
    as [_ Hsend]; [vm_compute; reflexivity|].
  unfold Demo.request, Demo.no_credentials.
  erewrite Hsend; [|lazy; reflexivity]. vm_compute. reflexivity.
Defined.

(** The claim C5 fails here: no source gives credentials, the client is
    built with [(None, None)], and its GET reaches the network and returns
    the answer; no [ConfigurationError] is raised. *)
Lemma missing_credentials_request_sent :
  CREDENTIALS (__init__ None ∅ "storage" None None None true PNone PNone)
  = mkCredentials PNone PNone ∧
  Demo.request (__init__ None ∅ "storage" None None None true PNone PNone)
    "GET" None None None tt
  = (Ok (Some "GET https://storage.api.cloud.nifty.com/?"),
     [NetGet "https://storage.api.cloud.nifty.com/?" ∅
        {[ "Authorization" := "V4 None" ]}]) ∧
  (Demo.request (__init__ None ∅ "storage" None None None true PNone PNone)
     "GET" None None None tt).1 ≠ Raise "ConfigurationError".
Proof. split_and!; by vm_compute. Qed.

Lemma unknown_version_99_uses_v2 :
  Demo.request Demo.computing "POST" None
    (Some {[ "SignatureVersion" := PStr "99" ]}) None tt
  = (Ok (Some "POST https://computing.jp-east-1.api.cloud.nifty.com/"),
     [NetPost "https://computing.jp-east-1.api.cloud.nifty.com/"
        {[ "SignatureVersion" := PStr "99" ]}
        {[ "Authorization" := "V2 AKID" ]}]).
Proof.
  destruct (unknown_version_uses_v2 (Response := string) (kwargs := unit)
              Demo.signer_v4 (Demo.signer "V2") (Demo.signer "V1")
              (Demo.signer "V0") (Demo.transport "GET") (Demo.transport "POST")
              Demo.url_query_pairs (PStr "99")) as [_ Hrequest];
    [discriminate..|].
  unfold Demo.request. rewrite Hrequest; vm_compute; reflexivity.
Defined.


(** The specification's scenario: [DescribeInstances] on [computing] in
    [jp-east-1] is a GET, signed with V2, with the sorted query in the URL and
    an empty body. *)
Example describe_instances_scenario :
  Demo.request Demo.computing "GET" (Some "DescribeInstances")
    (Some (<["Action" := PStr "DescribeInstances"]> {[ "Version" := PStr "1" ]}))
    None tt
  = (Ok (Some ("GET https://computing.jp-east-1.api.cloud.nifty.com/"
               ++ "DescribeInstances/?Action=DescribeInstances&Version=1")),
     [NetGet ("https://computing.jp-east-1.api.cloud.nifty.com/"
              ++ "DescribeInstances/?Action=DescribeInstances&Version=1")
        ∅ {[ "Authorization" := "V2 AKID" ]}]).
Proof. by vm_compute. Qed.

(** ** The query normaliser *)

(** The byte-wise order, spelled out: the empty string comes first, and two
    non-empty strings compare by their first bytes, then by their rests. *)
Lemma str_le_nil (s : string) : String.le "" s.
Proof. by destruct s. Qed.

Lemma str_le_cons (a b : ascii) (s t : string) :
  String.le (String a s) (String b t) ↔
  (N_of_ascii a < N_of_ascii b)%N ∨ (a = b ∧ String.le s t).
Proof.
  unfold String.le, String.leb. cbn [String.compare]. unfold Ascii.compare.
  destruct (N.compare_spec (N_of_ascii a) (N_of_ascii b)) as [Heq|Hlt|Hgt].
  - assert (a = b) as ->.
    { by rewrite <- (ascii_N_embedding a), <- (ascii_N_embedding b), Heq. }
    split; [by right|]. intros [Hlt|[_ Hle]]; [lia|done].
  - split; [intros _; left; lia|done].
  - split; [done|]. intros [Hlt|[-> _]]; lia.
Qed.

Section Normalise.

Variables (self : t) (path : option string)
  (headers : option (gmap string string)).

(** The request of a GET, in terms of the sorted keys. *)
Lemma build_request_get (query : option (gmap string pyval)) :
  let q := default ∅ query in
  build_request self "GET" path query headers =
    mkAWSRequest "GET"
      (_make_endpoint_url self path ++ "?" ++
         join "&" ((λ key, key ++ "=" ++ str (q !!! key)) <$> sorted q))
      ∅ (default ∅ headers).
Proof. by destruct query, headers. Qed.

(** C3: for a GET the URL is the endpoint, a [?], and the [key=value]
    fields joined by [&], over the keys of the query in strictly ascending
    byte-wise order, each value through [str]; the body is empty. *)
Theorem get_query_string_sorted (query : option (gmap string pyval)) :
  let q := default ∅ query in
  let r := build_request self "GET" path query headers in
  (∃ keys : list string,
     StronglySorted (strict String.le) keys ∧
     (∀ k, k ∈ keys ↔ is_Some (q !! k)) ∧
     url r = _make_endpoint_url self path ++ "?" ++
             join "&" ((λ k, k ++ "=" ++ str (q !!! k)) <$> keys)) ∧
  data r = ∅ ∧
  url (build_request self "GET" path
         (Some (<["b" := PStr "2"]> (<["a" := PStr "1"]> ∅))) headers)
  = _make_endpoint_url self path ++ "?a=1&b=2".
Proof.
  intros q r. subst r. rewrite !build_request_get. cbn [url data].
  split_and!; [|done|].
  - exists (sorted q). split_and!; [apply sorted_ascending| |done].
    intros k. apply sorted_elem_of.
  - do 2 f_equal.
Qed.

End Normalise.


(** C10: for a GET every key and the [str] of its value stand in the URL as
    they are, as [key=value] after the [?]: nothing is percent-encoded. *)
Theorem get_query_not_encoded (self : t) (path : option string)
    (query : gmap string pyval) (headers : option (gmap string string))
    (k : string) (v : pyval) :
  query !! k = Some v →
  ∃ pre post,
    url (build_request self "GET" path (Some query) headers)
    = _make_endpoint_url self path ++ "?" ++ pre ++ k ++ "=" ++ str v ++ post.
Proof.
  intros Hk. rewrite build_request_get. cbn [url].
  change (default ∅ (Some query)) with query.
  assert ((k ++ "=" ++ str v) ∈
            (λ key, key ++ "=" ++ str (query !!! key)) <$> sorted query) as Hin.
  { apply list_elem_of_fmap. exists k. split.
    - by rewrite (lookup_total_correct _ _ _ Hk).
    - apply sorted_elem_of. by exists v. }
  destruct (join_elem_of "&" _ _ Hin) as (pre & post & ->).
  exists pre, post. by rewrite !str_app_assoc.
Qed.

Lemma get_query_not_encoded_example :
  ∃ pre post,
    url (build_request Demo.computing "GET" None
           (Some {[ "a&b" := PStr "c=d?e" ]}) None)
    = _make_endpoint_url Demo.computing None ++ "?" ++ pre ++ "a&b" ++ "="
      ++ str (PStr "c=d?e") ++ post.
Proof.
  apply (get_query_not_encoded Demo.computing None
           {[ "a&b" := PStr "c=d?e" ]} None "a&b" (PStr "c=d?e")).
  vm_compute. reflexivity.
Defined.

Example get_query_not_encoded_url :
  url (build_request Demo.computing "GET" None
         (Some {[ "a&b" := PStr "c=d?e" ]}) None)
  = "https://computing.jp-east-1.api.cloud.nifty.com/?a&b=c=d?e".
Proof. vm_compute. reflexivity. Qed.

(** C7: for a POST the query mapping is the body of the request as it was
    given, and the URL is the endpoint with nothing appended. *)
Theorem post_query_is_body (self : t) (path : option string)
    (query : option (gmap string pyval)) (headers : option (gmap string string)) :
  build_request self "POST" path query headers
  = mkAWSRequest "POST" (_make_endpoint_url self path) (default ∅ query)
      (default ∅ headers).
Proof.
  unfold build_request.
  destruct query, headers; (case_decide; [done|]); cbn [default];
    by rewrite str_app_nil_r.
Qed.

(** ** The credentials *)

(** C8: the resolved access key and secret key follow the precedence file,
    then environment, then argument: an argument that is given wins over both
    other sources, and an environment variable that is set wins over the
    file. *)
Theorem credential_precedence (file : option yaml_doc)
    (env : gmap string string) (service_name : string)
    (region_name api_version base_path : option string) (use_ssl : bool)
    (access_key_id secret_access_key : pyval) :
  let self := __init__ file env service_name region_name api_version base_path
                use_ssl access_key_id secret_access_key in
  follows_precedence "ACCESS_KEY_ID" file env access_key_id
    (access_key (CREDENTIALS self)) ∧
  follows_precedence "SECRET_ACCESS_KEY" file env secret_access_key
    (secret_key (CREDENTIALS self)).
Proof.
  intros self. subst self. unfold __init__, os_getenv, follows_precedence.
  cbn [CREDENTIALS access_key secret_key].
  split; (split_and!;
    [ intros Harg; by rewrite decide_False
    | intros -> e He; rewrite decide_True by done; rewrite He;
      by destruct file as [[|config]|]; [|destruct (config !! _)|]
    | intros -> He config v -> Hv; rewrite decide_True by done;
      by rewrite Hv, He ]).
Qed.

(** All three sources at once, and then without the argument, and then
    without the environment variable. *)
Example credential_precedence_runs :
  let file := Some (YMap {[ "ACCESS_KEY_ID" := PStr "from-file" ]}) in
  let env : gmap string string := {[ "ACCESS_KEY_ID" := "from-env" ]} in
  let key file env arg :=
    access_key (CREDENTIALS (__init__ file env "computing" None None None true
                               arg PNone)) in
  key file env (PStr "from-arg") = PStr "from-arg" ∧
  key file env PNone = PStr "from-env" ∧
  key file ∅ PNone = PStr "from-file" ∧
  key None ∅ PNone = PNone.
Proof. split_and!; by vm_compute. Qed.

(** ** Further properties of the endpoint builder *)

Lemma str_app_nil_l (a : string) : "" ++ a = a.
Proof. reflexivity. Qed.

Lemma ends_with_slash_app (a b : string) :
  (∃ pre, b = pre ++ "/") → ∃ pre, a ++ b = pre ++ "/".
Proof. intros [pre ->]. exists (a ++ pre). by rewrite str_app_assoc. Qed.

Ltac ends_with_slash :=
  lazymatch goal with
  | |- ∃ pre, ?a ++ "/" = pre ++ "/" => by exists a
  | |- ∃ pre, ?a ++ ?b = pre ++ "/" => apply ends_with_slash_app; ends_with_slash
  end.

(** X1: the endpoint URL always ends with a slash, whatever is set or
    missing: the query string of a GET always follows [/?]. *)
Theorem endpoint_ends_with_slash (self : t) (path : option string) :
  ∃ pre, _make_endpoint_url self path = pre ++ "/".
Proof.
  rewrite endpoint_refines_spec. unfold endpoint_spec, component.
  destruct (USE_SSL self), (REGION_NAME self) as [r|], (BASE_PATH self) as [b|],
    (API_VERSION self) as [v|], path as [p|];
    repeat match goal with
           | |- context [truthy ?x] => destruct (truthy x)
           end;
    rewrite ?str_app_nil_l, ?str_app_assoc, ?str_app_nil_l, ?str_app_nil_r;
    ends_with_slash.
Qed.

(** X2: an empty string for the region, the API version, the base path or
    the path of the request counts as [None]: it adds neither text nor a
    separator to the URL. *)
Theorem endpoint_empty_is_absent (a s : pyval) (c : Credentials)
    (svc : string) (reg ver base : option string) (ssl : bool)
    (path : option string) :
  _make_endpoint_url (mk a s c svc (Some "") ver base ssl) path
    = _make_endpoint_url (mk a s c svc None ver base ssl) path
  ∧ _make_endpoint_url (mk a s c svc reg (Some "") base ssl) path
    = _make_endpoint_url (mk a s c svc reg None base ssl) path
  ∧ _make_endpoint_url (mk a s c svc reg ver (Some "") ssl) path
    = _make_endpoint_url (mk a s c svc reg ver None ssl) path
  ∧ _make_endpoint_url (mk a s c svc reg ver base ssl) (Some "")
    = _make_endpoint_url (mk a s c svc reg ver base ssl) None.
Proof. split_and!; reflexivity. Qed.

(** X3: the URL begins with [https://] exactly when [USE_SSL] is set, and
    with [http://] otherwise. *)
Theorem endpoint_scheme (self : t) (path : option string) :
  ((∃ rest, _make_endpoint_url self path = "https://" ++ rest)
     ↔ USE_SSL self = true)
  ∧ ((∃ rest, _make_endpoint_url self path = "http://" ++ rest)
     ↔ USE_SSL self = false).
Proof.
  unfold _make_endpoint_url. destruct (USE_SSL self); split; split;
    try done; try (intros _; eexists; reflexivity).
  - intros [rest Hrest]. rewrite !str_app_cons in Hrest. by simplify_eq.
  - intros [rest Hrest]. rewrite !str_app_cons in Hrest. by simplify_eq.
Qed.

(** ** Further properties of the query normaliser *)

(** [sorted] is settled by the keys alone: a sorted list without repeats
    that holds exactly the keys of [d] is [sorted d]. *)
Lemma sorted_unique {V} (d : gmap string V) (l : list string) :
  StronglySorted String.le l → NoDup l →
  (∀ k, k ∈ l ↔ is_Some (d !! k)) → sorted d = l.
Proof.
  intros Hsorted Hnodup Hkeys.
  apply (StronglySorted_unique String.le); [|done|].
  - unfold sorted. apply (StronglySorted_merge_sort _).
  - apply NoDup_Permutation; [apply sorted_NoDup|done|].
    intros k. by rewrite sorted_elem_of, Hkeys.
Qed.

Lemma sorted_fmap {V W} (f : V → W) (d : gmap string V) :
  sorted (f <$> d) = sorted d.
Proof.
  apply sorted_unique.
  - unfold sorted. apply (StronglySorted_merge_sort _).
  - apply sorted_NoDup.
  - intros k. by rewrite sorted_elem_of, lookup_fmap, fmap_is_Some.
Qed.

Lemma sorted_insert_least {V} (d : gmap string V) (k : string) (v : V) :
  d !! k = None → (∀ k', is_Some (d !! k') → String.le k k') →
  sorted (<[k := v]> d) = k :: sorted d.
Proof.
  intros Hfresh Hleast. apply sorted_unique.
  - constructor; [unfold sorted; apply (StronglySorted_merge_sort _)|].
    apply Forall_forall. intros k' Hk'. by apply Hleast, sorted_elem_of.
  - constructor; [|apply sorted_NoDup].
    rewrite sorted_elem_of, Hfresh. by intros [? ?].
  - intros k'. rewrite elem_of_cons, sorted_elem_of, lookup_insert_is_Some.
    destruct (decide (k = k')); intuition congruence.
Qed.

Lemma join_cons (sep x y : string) (l : list string) :
  join sep (x :: y :: l) = x ++ sep ++ join sep (y :: l).
Proof. reflexivity. Qed.

(** X4: every method other than the exact text [GET], a lower-case [get]
    among them, is built like a POST: the query mapping is the body, and the
    URL is the endpoint with no query string. *)
Theorem build_request_not_get (self : t) (verb : string)
    (path : option string) (query : option (gmap string pyval))
    (hdrs : option (gmap string string)) :
  verb ≠ "GET" →
  build_request self verb path query hdrs
  = mkAWSRequest verb (_make_endpoint_url self path) (default ∅ query)
      (default ∅ hdrs).
Proof.
  intros Hverb. unfold build_request.
  destruct query, hdrs; rewrite decide_False by done; cbn [default];
    by rewrite str_app_nil_r.
Qed.

Lemma build_request_lowercase_get :
  build_request Demo.computing "get" None
    (Some {[ "Action" := PStr "DescribeRegions" ]}) None
  = mkAWSRequest "get" "https://computing.jp-east-1.api.cloud.nifty.com/"
      {[ "Action" := PStr "DescribeRegions" ]} ∅.
Proof.
  rewrite (build_request_not_get Demo.computing "get" None
             (Some {[ "Action" := PStr "DescribeRegions" ]}) None);
    [reflexivity|discriminate].
Defined.

(** X5: a GET reads the values of the query through [str] alone: the
    request is the same when every value is replaced by its text, so an
    integer [1] and the string ["1"] cannot be told apart. *)
Theorem get_values_only_through_str (self : t) (path : option string)
    (query : gmap string pyval) (hdrs : option (gmap string string)) :
  build_request self "GET" path (Some ((λ v, PStr (str v)) <$> query)) hdrs
  = build_request self "GET" path (Some query) hdrs.
Proof.
  rewrite !build_request_get. cbn [default from_option id].
  do 4 f_equal. rewrite sorted_fmap. apply Forall_fmap_ext_1, Forall_forall.
  intros k [v Hv]%sorted_elem_of.
  rewrite (lookup_total_correct _ _ _ Hv).
  by rewrite (lookup_total_correct ((λ v, PStr (str v)) <$> query) k
                (PStr (str v))) by (by rewrite lookup_fmap, Hv).
Qed.

(** X6: a new key that sorts before every key of a query that is not empty
    puts its field first: the query string becomes [key=value&] followed by
    the query string there was. *)
Theorem get_least_key_goes_first (self : t) (path : option string)
    (query : gmap string pyval) (hdrs : option (gmap string string))
    (k : string) (v : pyval) :
  query ≠ ∅ → query !! k = None →
  (∀ k', is_Some (query !! k') → String.le k k') →
  ∃ qs,
    url (build_request self "GET" path (Some query) hdrs)
    = _make_endpoint_url self path ++ "?" ++ qs ∧
    url (build_request self "GET" path (Some (<[k := v]> query)) hdrs)
    = _make_endpoint_url self path ++ "?" ++ k ++ "=" ++ str v ++ "&" ++ qs.
Proof.
  intros Hne Hfresh Hleast. rewrite !build_request_get.
  cbn [url default from_option id].
  eexists. split; [reflexivity|]. do 2 f_equal.
  rewrite (sorted_insert_least _ _ _ Hfresh Hleast), fmap_cons.
  rewrite lookup_total_insert_eq.
  assert ((λ key, key ++ "=" ++ str (<[k := v]> query !!! key)) <$> sorted query
          = (λ key, key ++ "=" ++ str (query !!! key)) <$> sorted query) as ->.
  { apply Forall_fmap_ext_1, Forall_forall. intros k' Hk'.
    rewrite lookup_total_insert_ne; [done|]. intros ->.
    apply sorted_elem_of in Hk'. rewrite Hfresh in Hk'. by destruct Hk'. }
  destruct (map_choose _ Hne) as (k0 & v0 & Hk0).
  assert (k0 ∈ sorted query) as Hin by (apply sorted_elem_of; eauto).
  destruct (sorted query) as [|k1 ks]; [by apply elem_of_nil in Hin|].
  by rewrite fmap_cons, join_cons, !str_app_assoc.
Qed.

Lemma get_least_key_goes_first_example :
  ∃ qs,
    url (build_request Demo.computing "GET" None
           (Some {[ "b" := PStr "2" ]}) None)
    = _make_endpoint_url Demo.computing None ++ "?" ++ qs ∧
    url (build_request Demo.computing "GET" None
           (Some (<["a" := PInt 1]> {[ "b" := PStr "2" ]})) None)
    = _make_endpoint_url Demo.computing None ++ "?" ++ "a" ++ "="
      ++ str (PInt 1) ++ "&" ++ qs.
Proof.
  apply (get_least_key_goes_first Demo.computing None
           {[ "b" := PStr "2" ]} None "a" (PInt 1)).
  - intros Hempty%(f_equal (lookup "b")). vm_compute in Hempty. discriminate.
  - vm_compute. reflexivity.
  - intros k' [x [<- _]%lookup_singleton_Some]. vm_compute. exact I.
Defined.

(** ** Further properties of the pipeline *)

Section Calls.

Context {Response kwargs : Type}.
Variable sig_v4 :
  Credentials → string → option string → AWSRequest → result AWSRequest.
Variables sig_v2 sig_v1 sig_v0 : Credentials → AWSRequest → result AWSRequest.
Variables requests_get requests_post :
  string → gmap string pyval → gmap string string → kwargs → result Response.
Variable url_query_pairs : string → result (list (string * string)).

Local Abbreviation add_auth := (add_auth sig_v4 sig_v2 sig_v1 sig_v0).
Local Abbreviation send := (send requests_get requests_post).
Local Abbreviation resolve := (_get_signature_version url_query_pairs).
Local Abbreviation request :=
  (request sig_v4 sig_v2 sig_v1 sig_v0 requests_get requests_post
     url_query_pairs).
Local Abbreviation get :=
  (get sig_v4 sig_v2 sig_v1 sig_v0 requests_get requests_post url_query_pairs).
Local Abbreviation post :=
  (post sig_v4 sig_v2 sig_v1 sig_v0 requests_get requests_post url_query_pairs).

(** [request] in terms of the signed request, when the version is resolved
    and the signer returns; and when one of the two raises. *)
Lemma request_signed (self : t) verb path query hdrs (kw : kwargs)
    version signed :
  let r := build_request self verb path query hdrs in
  resolve self r (url r) = Ok version →
  add_auth self version r = Ok signed →
  request self verb path query hdrs kw = send signed kw.
Proof.
  intros r Hversion Hsigned. unfold NifCloudClient.request. fold r.
  by rewrite Hversion, Hsigned.
Qed.

Lemma request_not_signed (self : t) verb path query hdrs (kw : kwargs)
    version e :
  let r := build_request self verb path query hdrs in
  resolve self r (url r) = Ok version →
  add_auth self version r = Raise e →
  request self verb path query hdrs kw = (Raise e, []).
Proof.
  intros r Hversion Hsigned. unfold NifCloudClient.request. fold r.
  by rewrite Hversion, Hsigned.
Qed.

Lemma request_not_resolved (self : t) verb path query hdrs (kw : kwargs) e :
  let r := build_request self verb path query hdrs in
  resolve self r (url r) = Raise e →
  request self verb path query hdrs kw = (Raise e, []).
Proof.
  intros r Hversion. unfold NifCloudClient.request. fold r.
  by rewrite Hversion.
Qed.

(** The outcomes of the two steps before the transport. *)
Lemma request_cases (self : t) verb path query hdrs (kw : kwargs) :
  let r := build_request self verb path query hdrs in
  (∃ version signed,
     resolve self r (url r) = Ok version ∧
     add_auth self version r = Ok signed ∧
     request self verb path query hdrs kw = send signed kw) ∨
  (∃ e, request self verb path query hdrs kw = (Raise e, [])).
Proof.
  intros r. destruct (resolve self r (url r)) as [version|e] eqn:Hversion.
  - destruct (add_auth self version r) as [signed|e] eqn:Hsigned.
    + left. exists version, signed. split_and!; [done..|].
      by apply (request_signed _ _ _ _ _ _ version).
    + right. exists e. by apply (request_not_signed _ _ _ _ _ _ version).
  - right. exists e. by apply request_not_resolved.
Qed.

(** X7: whatever reaches the network was signed first.  A call of
    [request] makes at most one network call, and that call carries the URL,
    body and headers of the request the signer returned, with the verb of
    its method; nothing is sent when [urlsplit] or the signer raises. *)
Theorem network_call_is_signed (self : t) (verb : string)
    (path : option string) (query : option (gmap string pyval))
    (hdrs : option (gmap string string)) (kw : kwargs) (ev : net_event) :
  let r := build_request self verb path query hdrs in
  ev ∈ (request self verb path query hdrs kw).2 →
  (request self verb path query hdrs kw).2 = [ev] ∧
  ∃ version signed,
    resolve self r (url r) = Ok version ∧
    add_auth self version r = Ok signed ∧
    ((method signed = "GET" ∧
      ev = NetGet (url signed) (data signed) (headers signed)) ∨
     (method signed = "POST" ∧
      ev = NetPost (url signed) (data signed) (headers signed))).
Proof.
  intros r.
  destruct (request_cases self verb path query hdrs kw)
    as [(version & signed & Hversion & Hsigned & ->)|[e ->]].
  - unfold NifCloudClient.send. repeat case_decide; cbn [snd].
    + intros ->%list_elem_of_singleton. split; [done|].
      exists version, signed. auto.
    + intros ->%list_elem_of_singleton. split; [done|].
      exists version, signed. auto.
    + by intros ?%elem_of_nil.
  - cbn [snd]. by intros ?%elem_of_nil.
Qed.

(** X8: a response that [request] returns is the one the transport gave,
    as it is, for the signed request and the verb of its method. *)
Theorem response_comes_from_transport (self : t) (verb : string)
    (path : option string) (query : option (gmap string pyval))
    (hdrs : option (gmap string string)) (kw : kwargs) (resp : Response)
    (trace : list net_event) :
  let r := build_request self verb path query hdrs in
  request self verb path query hdrs kw = (Ok (Some resp), trace) →
  ∃ version signed,
    resolve self r (url r) = Ok version ∧
    add_auth self version r = Ok signed ∧
    ((method signed = "GET" ∧
      requests_get (url signed) (data signed) (headers signed) kw = Ok resp) ∨
     (method signed = "POST" ∧
      requests_post (url signed) (data signed) (headers signed) kw = Ok resp)).
Proof.
  intros r.
  destruct (request_cases self verb path query hdrs kw)
    as [(version & signed & Hversion & Hsigned & ->)|[e ->]]; [|done].
  unfold NifCloudClient.send. intros Hsend. exists version, signed.
  split_and!; [done..|]. revert Hsend. repeat case_decide; [| |done].
  - destruct (requests_get _ _ _ _); [|done]. intros [= -> _]. by left.
  - destruct (requests_post _ _ _ _); [|done]. intros [= -> _]. by right.
Qed.

(** X9: an exception of the transport goes through [request] unchanged,
    after the one network call; nothing is retried or swallowed. *)
Theorem transport_error_passes_through (self : t) (verb : string)
    (path : option string) (query : option (gmap string pyval))
    (hdrs : option (gmap string string)) (kw : kwargs) (version : pyval)
    (signed : AWSRequest) (e : string) :
  let r := build_request self verb path query hdrs in
  resolve self r (url r) = Ok version →
  add_auth self version r = Ok signed →
  (method signed = "GET" ∧
   requests_get (url signed) (data signed) (headers signed) kw = Raise e) ∨
  (method signed = "POST" ∧
   requests_post (url signed) (data signed) (headers signed) kw = Raise e) →
  (request self verb path query hdrs kw).1 = Raise e ∧
  length (request self verb path query hdrs kw).2 = 1%nat.
Proof.
  intros r Hversion Hsigned Hraise.
  rewrite (request_signed _ _ _ _ _ _ _ _ Hversion Hsigned).
  unfold NifCloudClient.send. destruct Hraise as [[Hm He]|[Hm He]].
  - rewrite decide_True by done. by rewrite He.
  - rewrite decide_False by (rewrite Hm; discriminate).
    rewrite decide_True by done. by rewrite He.
Qed.

(** X10: for a GET whose URL shows no [SignatureVersion] field, the signer
    follows the service name alone: V2 when it contains [computing], else V4
    with the service and region names of the client.  The query mapping is
    not consulted, the body of a GET being empty. *)
Theorem get_default_signer (self : t) (path : option string)
    (query : option (gmap string pyval)) (hdrs : option (gmap string string))
    (kw : kwargs) (pairs : list (string * string)) :
  let r := build_request self "GET" path query hdrs in
  url_query_pairs (url r) = Ok pairs →
  "SignatureVersion" ∉ pairs.*1 →
  request self "GET" path query hdrs kw =
    match
      (if str_contains "computing" (SERVICE_NAME self)
       then sig_v2 (CREDENTIALS self) r
       else sig_v4 (CREDENTIALS self) (SERVICE_NAME self) (REGION_NAME self) r)
    with
    | Raise e => (Raise e, [])
    | Ok signed => send signed kw
    end.
Proof.
  intros r Hpairs Hurl. unfold NifCloudClient.request. fold r.
  assert (resolve self r (url r)
          = Ok (PStr (if str_contains "computing" (SERVICE_NAME self)
                      then "2" else "4"))) as ->.
  { unfold _get_signature_version.
    rewrite Hpairs, (dict_lookup_None _ _ Hurl).
    subst r. rewrite build_request_get. cbn [data]. rewrite lookup_empty.
    by destruct (str_contains _ _). }
  unfold NifCloudClient.add_auth.
  destruct (str_contains "computing" (SERVICE_NAME self)).
  - by rewrite decide_False, decide_True.
  - by rewrite decide_True.
Qed.

(** X11: for a GET whose URL [urllib] reads, the resolved signature version
    is always a [str]: a value of the URL's query, or ["2"], or ["4"].  A [SignatureVersion] of
    another type in the query mapping never reaches the dispatch as such. *)
Theorem get_version_is_text (self : t) (path : option string)
    (query : option (gmap string pyval)) (hdrs : option (gmap string string))
    (pairs : list (string * string)) :
  let r := build_request self "GET" path query hdrs in
  url_query_pairs (url r) = Ok pairs →
  ∃ s, resolve self r (url r) = Ok (PStr s) ∧
       (("SignatureVersion", s) ∈ pairs ∨ s = "2" ∨ s = "4").
Proof.
  intros r Hpairs. unfold _get_signature_version. rewrite Hpairs.
  destruct (decide ("SignatureVersion" ∈ pairs.*1)) as [Hin|Hnotin].
  - destruct (dict_lookup_Some _ _ Hin) as (l1 & v & l2 & Hsplit & _ & ->).
    exists v. split; [done|]. left. rewrite Hsplit.
    apply elem_of_app. right. apply list_elem_of_here.
  - rewrite (dict_lookup_None _ _ Hnotin). subst r.
    rewrite build_request_get. cbn [data]. rewrite lookup_empty.
    destruct (str_contains _ _); eauto.
Qed.

(** X12: for a POST (any method but GET) whose URL shows no
    [SignatureVersion] field, a [SignatureVersion] of the query mapping that
    is not a [str], the integer [4] say, selects the V2 signer: the dispatch
    compares with the texts ["4"], ["2"], ["1"], ["0"]. *)
Theorem post_version_not_text_uses_v2 (self : t) (verb : string)
    (path : option string) (query : gmap string pyval)
    (hdrs : option (gmap string string)) (kw : kwargs) (v : pyval)
    (pairs : list (string * string)) :
  let r := build_request self verb path (Some query) hdrs in
  verb ≠ "GET" →
  url_query_pairs (url r) = Ok pairs →
  "SignatureVersion" ∉ pairs.*1 →
  query !! "SignatureVersion" = Some v →
  (∀ s, v ≠ PStr s) →
  request self verb path (Some query) hdrs kw =
    match sig_v2 (CREDENTIALS self) r with
    | Raise e => (Raise e, [])
    | Ok signed => send signed kw
    end.
Proof.
  intros r Hverb Hpairs Hurl Hbody Hv. unfold NifCloudClient.request. fold r.
  assert (resolve self r (url r) = Ok v) as ->.
  { unfold _get_signature_version.
    rewrite Hpairs, (dict_lookup_None _ _ Hurl).
    subst r. unfold build_request. rewrite decide_False by done.
    cbn [data]. by rewrite Hbody. }
  unfold NifCloudClient.add_auth. by rewrite !decide_False.
Qed.

(** X13: [get] and [post] reach the network exactly once, with their own
    verb, whenever the signer returns and leaves the method as it was. *)
Theorem get_post_call_once (self : t) (path : option string)
    (query : option (gmap string pyval)) (hdrs : option (gmap string string))
    (kw : kwargs) :
  (∀ version signed,
     resolve self (build_request self "GET" path query hdrs)
       (url (build_request self "GET" path query hdrs)) = Ok version →
     add_auth self version (build_request self "GET" path query hdrs)
     = Ok signed →
     method signed = "GET" →
     (get self path query hdrs kw).2
     = [NetGet (url signed) (data signed) (headers signed)]) ∧
  (∀ version signed,
     resolve self (build_request self "POST" path query hdrs)
       (url (build_request self "POST" path query hdrs)) = Ok version →
     add_auth self version (build_request self "POST" path query hdrs)
     = Ok signed →
     method signed = "POST" →
     (post self path query hdrs kw).2
     = [NetPost (url signed) (data signed) (headers signed)]).
Proof.
  split; intros version signed Hversion Hsigned Hmethod.
  - unfold NifCloudClient.get.
    rewrite (request_signed _ _ _ _ _ _ _ _ Hversion Hsigned).
    unfold NifCloudClient.send. by rewrite decide_True.
  - unfold NifCloudClient.post.
    rewrite (request_signed _ _ _ _ _ _ _ _ Hversion Hsigned).
    unfold NifCloudClient.send. rewrite decide_False by (rewrite Hmethod; done).
    by rewrite decide_True.
Qed.



End Calls.

(** Runs of the stand-ins that meet the hypotheses above. *)

Lemma network_call_is_signed_get :
  (Demo.request Demo.computing "GET" None None None tt).2
  = [NetGet "https://computing.jp-east-1.api.cloud.nifty.com/?" ∅
       {[ "Authorization" := "V2 AKID" ]}].
Proof.
  destruct (network_call_is_signed (Response := string) (kwargs := unit)
              Demo.signer_v4 (Demo.signer "V2") (Demo.signer "V1")
              (Demo.signer "V0") (Demo.transport "GET") (Demo.transport "POST")
              Demo.url_query_pairs Demo.computing "GET" None None None tt
              (NetGet "https://computing.jp-east-1.api.cloud.nifty.com/?" ∅
                 {[ "Authorization" := "V2 AKID" ]})) as [Htrace _].
  - vm_compute. constructor.
  - exact Htrace.
Defined.

Lemma response_comes_from_transport_get :
  ∃ signed,
    (method signed = "GET" ∧
     Demo.transport "GET" (url signed) (data signed) (headers signed) tt
     = Ok "GET https://computing.jp-east-1.api.cloud.nifty.com/?") ∨
    (method signed = "POST" ∧
     Demo.transport "POST" (url signed) (data signed) (headers signed) tt
     = Ok "GET https://computing.jp-east-1.api.cloud.nifty.com/?").
Proof.
  destruct (response_comes_from_transport (Response := string) (kwargs := unit)
              Demo.signer_v4 (Demo.signer "V2") (Demo.signer "V1")
              (Demo.signer "V0") (Demo.transport "GET") (Demo.transport "POST")
              Demo.url_query_pairs Demo.computing "GET" None None None tt
              "GET https://computing.jp-east-1.api.cloud.nifty.com/?"
              [NetGet "https://computing.jp-east-1.api.cloud.nifty.com/?" ∅
                 {[ "Authorization" := "V2 AKID" ]}])
    as (version & signed & _ & _ & Hfrom).
  - vm_compute. reflexivity.
  - by exists signed.
Defined.

Lemma transport_error_passes_through_offline :
  (Demo.request_offline Demo.computing "GET" None None None tt).1
  = Raise "ConnectionError" ∧
  length (Demo.request_offline Demo.computing "GET" None None None tt).2
  = 1%nat.
Proof.
  apply (transport_error_passes_through (Response := string) (kwargs := unit)
           Demo.signer_v4 (Demo.signer "V2") (Demo.signer "V1")
           (Demo.signer "V0") Demo.transport_down Demo.transport_down
           Demo.url_query_pairs Demo.computing "GET" None None None tt
           (PStr "2")
           (mkAWSRequest "GET"
              "https://computing.jp-east-1.api.cloud.nifty.com/?" ∅
              {[ "Authorization" := "V2 AKID" ]})
           "ConnectionError").
  - vm_compute. reflexivity.
  - vm_compute. reflexivity.
  - left. split; reflexivity.
Defined.

Lemma get_default_signer_computing :
  Demo.request Demo.computing "GET" None
    (Some {[ "Action" := PStr "DescribeRegions" ]}) None tt
  = (Ok (Some ("GET https://computing.jp-east-1.api.cloud.nifty.com/"
               ++ "?Action=DescribeRegions")),
     [NetGet ("https://computing.jp-east-1.api.cloud.nifty.com/"
              ++ "?Action=DescribeRegions")
        ∅ {[ "Authorization" := "V2 AKID" ]}]).
Proof.
  unfold Demo.request.
  rewrite (get_default_signer (Response := string) (kwargs := unit)
             Demo.signer_v4 (Demo.signer "V2") (Demo.signer "V1")
             (Demo.signer "V0") (Demo.transport "GET") (Demo.transport "POST")
             Demo.url_query_pairs Demo.computing None
             (Some {[ "Action" := PStr "DescribeRegions" ]}) None tt
             [("Action", "DescribeRegions")]).
  - vm_compute. reflexivity.
  - vm_compute. reflexivity.
  - vm_compute. intros Hin. inversion Hin as [|? ? ? Hnil]; inversion Hnil.
Defined.

Lemma post_version_integer_4_uses_v2 :
  Demo.request Demo.no_credentials "POST" None
    (Some {[ "SignatureVersion" := PInt 4 ]}) None tt
  = (Ok (Some "POST https://storage.api.cloud.nifty.com/"),
     [NetPost "https://storage.api.cloud.nifty.com/"
        {[ "SignatureVersion" := PInt 4 ]}
        {[ "Authorization" := "V2 None" ]}]).
Proof.
  unfold Demo.request.
  rewrite (post_version_not_text_uses_v2 (Response := string) (kwargs := unit)
             Demo.signer_v4 (Demo.signer "V2") (Demo.signer "V1")
             (Demo.signer "V0") (Demo.transport "GET") (Demo.transport "POST")
             Demo.url_query_pairs Demo.no_credentials "POST" None
             {[ "SignatureVersion" := PInt 4 ]} None tt (PInt 4) []).
  - vm_compute. reflexivity.
  - discriminate.
  - vm_compute. reflexivity.
  - vm_compute. intros Hin. inversion Hin.
  - vm_compute. reflexivity.
  - discriminate.
Defined.

Lemma get_version_is_text_example :
  ∃ s,
    _get_signature_version Demo.url_query_pairs Demo.computing
      (build_request Demo.computing "GET" None
         (Some {[ "SignatureVersion" := PInt 4 ]}) None)
      (url (build_request Demo.computing "GET" None
              (Some {[ "SignatureVersion" := PInt 4 ]}) None))
    = Ok (PStr s) ∧
    (("SignatureVersion", s) ∈ [("SignatureVersion", "4")]
     ∨ s = "2" ∨ s = "4").
Proof.
  apply (get_version_is_text Demo.url_query_pairs Demo.computing None
           (Some {[ "SignatureVersion" := PInt 4 ]}) None
           [("SignatureVersion", "4")]).
  vm_compute. reflexivity.
Defined.


(** ** Further properties of the construction *)

(** X14: a configuration file that gives nothing for the two keys, being
    empty, or lacking them, or holding a null for them, leaves the client as
    it is without any file. *)
Theorem init_file_without_keys (file : option yaml_doc)
    (env : gmap string string) (service_name : string)
    (region_name api_version base_path : option string) (use_ssl : bool)
    (access_key_id secret_access_key : pyval) :
  (∀ config v, file = Some (YMap config) →
               config !! "ACCESS_KEY_ID" = Some v → v = PNone) →
  (∀ config v, file = Some (YMap config) →
               config !! "SECRET_ACCESS_KEY" = Some v → v = PNone) →
  __init__ file env service_name region_name api_version base_path use_ssl
    access_key_id secret_access_key
  = __init__ None env service_name region_name api_version base_path use_ssl
      access_key_id secret_access_key.
Proof.
  intros Haccess Hsecret. destruct file as [[|config]|]; [done| |done].
  unfold __init__.
  destruct (config !! "ACCESS_KEY_ID") as [a|] eqn:Ha;
    destruct (config !! "SECRET_ACCESS_KEY") as [b|] eqn:Hb;
    rewrite ?(Haccess _ _ eq_refl Ha), ?(Hsecret _ _ eq_refl Hb); done.
Qed.

Lemma init_file_without_keys_example :
  __init__ (Some (YMap {[ "ACCESS_KEY_ID" := PNone; "REGION" := PStr "west" ]}))
    {[ "ACCESS_KEY_ID" := "from-env" ]} "computing" None None None true
    PNone PNone
  = __init__ None {[ "ACCESS_KEY_ID" := "from-env" ]} "computing" None None
      None true PNone PNone.
Proof.
  apply (init_file_without_keys
           (Some (YMap {[ "ACCESS_KEY_ID" := PNone; "REGION" := PStr "west" ]}))).
  - intros config v [= <-] Hv. vm_compute in Hv. by injection Hv as <-.
  - intros config v [= <-] Hv. vm_compute in Hv. discriminate.
Defined.

(** X15: when both keys are given as arguments, and the configuration file
    is missing, an empty document or a mapping, the client holds exactly the
    two arguments, whatever that mapping and the environment hold. *)
Theorem init_arguments_alone (file : option yaml_doc)
    (env : gmap string string) (service_name : string)
    (region_name api_version base_path : option string) (use_ssl : bool)
    (access_key_id secret_access_key : pyval) :
  access_key_id ≠ PNone → secret_access_key ≠ PNone →
  __init__ file env service_name region_name api_version base_path use_ssl
    access_key_id secret_access_key
  = mk access_key_id secret_access_key
      (mkCredentials access_key_id secret_access_key) service_name region_name
      api_version base_path use_ssl.
Proof. intros Ha Hs. unfold __init__. by rewrite !decide_False. Qed.

Lemma init_arguments_alone_example :
  __init__ (Some (YMap {[ "ACCESS_KEY_ID" := PStr "from-file" ]}))
    {[ "SECRET_ACCESS_KEY" := "from-env" ]} "computing" (Some "jp-east-1")
    None None true (PStr "AKID") (PStr "SECRET")
  = Demo.computing.
Proof.
  rewrite init_arguments_alone by discriminate.
  unfold Demo.computing. by rewrite init_arguments_alone by discriminate.
Defined.
